(** * UserForm: the submission logic of [components/UserForm.tsx]

    The component keeps four pieces of React state (the client-validation
    toggle, the pending flag of [useTransition], the success timestamp and
    the banner message) next to the state of a react-hook-form form.  Its
    [onSubmit] callback encodes the record as [FormData], awaits the server
    action and maps the typed result back onto that state.

    The embedding is a state-passing one.  The [await] splits [onSubmit] in
    two: what runs when the form is submitted ([onSubmit_begin]) and what
    runs once the promise of the server action has settled
    ([onSubmit_settle]).  Composing the two gives one complete submission
    ([onSubmit]); interleaving them with the other UI events gives the
    transition system of the page ([react], [run]). *)

From stdpp Require Import base strings gmap list.

(** ** JavaScript values held by the form fields

    TypeScript types are erased at run time: without a resolver the form
    hands whatever the inputs hold to [onSubmit], so a field value is a
    JavaScript value: null, undefined, a string or a number.  The code
    looks at a number in two ways only, [value !== ''] (which holds of every
    number) and [value.toString()]; a number is therefore kept as the text
    that [Number.prototype.toString] gives for it: "25", "0.5", "1e+21",
    "NaN". *)

Inductive JsValue :=
| JNull
| JUndefined
| JString (s : string)
| JNumber (text : string).

Global Instance JsValue_eq_dec : EqDecision JsValue.
Proof. solve_decision. Defined.

(** A thrown [Error]: its [name] and [message]. *)
Record Exception := Error { errorName : string; errorMessage : string }.

(** [Error.prototype.toString]: the name alone when there is no message,
    the message alone when there is no name, otherwise both. *)
Definition Exception_toString (error : Exception) : string :=
  if decide (errorName error = "") then errorMessage error
  else if decide (errorMessage error = "") then errorName error
  else errorName error +:+ ": " +:+ errorMessage error.

Definition TypeError (message : string) : Exception :=
  {| errorName := "TypeError"; errorMessage := message |}.

(** [value.toString()]: a property access on [null] or [undefined] throws. *)
Definition toString (value : JsValue) : Exception + string :=
  match value with
  | JNull => inl (TypeError "Cannot read properties of null (reading 'toString')")
  | JUndefined => inl (TypeError "Cannot read properties of undefined (reading 'toString')")
  | JString s => inr s
  | JNumber text => inr text
  end.

(** ** The record and its form encoding *)

Record UserFormData := {
  name : JsValue;
  email : JsValue;
  age : JsValue;
  bio : JsValue
}.

(** [defaultValues] of [useForm] (lines 25-30). *)
Definition defaultValues : UserFormData :=
  {| name := JString "";
     email := JString "jdoe@acme.com";
     age := JNumber "25";
     bio := JString "I'm an American" |}.

(** [Object.entries(data)]: own properties in insertion order. *)
Definition Object_entries (data : UserFormData) : list (string * JsValue) :=
  [("name", name data); ("email", email data);
   ("age", age data); ("bio", bio data)].

(** [FormData]: an ordered list of entries; [append] adds at the end. *)
Abbreviation FormData := (list (string * string)).

Definition FormData_append (formData : FormData) (key value : string) : FormData :=
  formData ++ [(key, value)].

Definition FormData_getAll (formData : FormData) (key : string) : list string :=
  (filter (λ entry, entry.1 = key) formData).*2.

(** The test of line 41:
    [value !== null && value !== undefined && value !== '']. *)
Definition isSubmittable (value : JsValue) : bool :=
  bool_decide (value ≠ JNull) && bool_decide (value ≠ JUndefined)
  && bool_decide (value ≠ JString "").

(** One round of the [forEach] of lines 40-44; an exception raised by an
    earlier round leaves the loop. *)
Definition appendEntry (acc : Exception + FormData) (entry : string * JsValue)
  : Exception + FormData :=
  match acc with
  | inl error => inl error
  | inr formData =>
      if isSubmittable entry.2 then
        match toString entry.2 with
        | inl error => inl error
        | inr text => inr (FormData_append formData entry.1 text)
        end
      else inr formData
  end.

(** Lines 39-44. *)
Definition buildFormData (entries : list (string * JsValue)) : Exception + FormData :=
  foldl appendEntry (inr []) entries.

(** What the loop is meant to add for one property: nothing for [null],
    [undefined] and the empty string, otherwise the key with the string
    conversion of the value. *)
Definition encodedEntry (entry : string * JsValue) : FormData :=
  match entry.2 with
  | JNull | JUndefined => []
  | JString s => if decide (s = "") then [] else [(entry.1, s)]
  | JNumber text => [(entry.1, text)]
  end.

(** ** The form object of react-hook-form

    Only what [onSubmit] touches: the current values and the map of field
    errors, keyed by field name.  [reset()] without arguments restores the
    default values and drops the errors; [setError] records one error under
    its key, replacing an earlier one. *)

Record FieldError := { type : string; message : string }.

Global Instance FieldError_eq_dec : EqDecision FieldError.
Proof. solve_decision. Defined.

Record UseFormReturn := {
  formValues : UserFormData;
  formErrors : gmap string FieldError
}.

Definition form_reset (form : UseFormReturn) : UseFormReturn :=
  {| formValues := defaultValues; formErrors := ∅ |}.

Definition form_setError (key : string) (error : FieldError) (form : UseFormReturn)
  : UseFormReturn :=
  {| formValues := formValues form; formErrors := <[key := error]> (formErrors form) |}.

Definition form_setValues (data : UserFormData) (form : UseFormReturn) : UseFormReturn :=
  {| formValues := data; formErrors := formErrors form |}.

Definition form_setErrors (errors : gmap string FieldError) (form : UseFormReturn)
  : UseFormReturn :=
  {| formValues := formValues form; formErrors := errors |}.

(** ** The result of the server action

    [lib/types] and [lib/actions] are not part of the sources at hand.  The
    component reaches them through [result.success], [result.error], the four
    guards of [ErrorTypeGuards] and the fields [errors] and [message] of the
    narrowed error; these are taken as an interface over the type [E] of the
    run-time error values.  A guard that answers true has checked the field
    its branch reads, so reading [errors] or [message] does not throw. *)

Class ErrorTypes (E : Type) := {
  isZodValidationError : E → bool;
  isDatabaseError : E → bool;
  isPermissionError : E → bool;
  isUnknownError : E → bool;
  error_errors : E → gmap string string;
  error_message : E → string
}.

Inductive ActionResult (E : Type) :=
| Success
| Failure (error : E).
Global Arguments Success {E}.
Global Arguments Failure {E} error.

(** How the promise returned by [submitUserData] settles: it resolves with a
    result, it rejects with what the call threw, or it resolves with
    [undefined] in place of a result. *)
Inductive Settled (E : Type) :=
| Resolved (result : ActionResult E)
| Rejected (error : Exception)
| ResolvedUndefined.
Global Arguments Resolved {E} result.
Global Arguments Rejected {E} error.
Global Arguments ResolvedUndefined {E}.

(** What [result.success] throws at line 47 when [result] is [undefined]. *)
Definition undefinedResultError : Exception :=
  TypeError "Cannot read properties of undefined (reading 'success')".

(** Modelled from the spec: the error record of [lib/types], "one of four
    tagged shapes (validation-errors-by-field, database-error-message,
    permission-error-message, unknown-error-message)"; each guard of
    [ErrorTypeGuards] recognises its own tag. *)
Inductive AppError :=
| ZodValidationError (errors : gmap string string)
| DatabaseError (message : string)
| PermissionError (message : string)
| UnknownError (message : string).

(** Modelled from the spec: the guards of [ErrorTypeGuards] and the fields of
    the narrowed errors ([lib/types]), over the four tagged shapes. *)
Global Instance AppError_types : ErrorTypes AppError := {|
  isZodValidationError e := match e with ZodValidationError _ => true | _ => false end;
  isDatabaseError e := match e with DatabaseError _ => true | _ => false end;
  isPermissionError e := match e with PermissionError _ => true | _ => false end;
  isUnknownError e := match e with UnknownError _ => true | _ => false end;
  error_errors e := match e with ZodValidationError errors => errors | _ => ∅ end;
  error_message e :=
    match e with
    | ZodValidationError _ => ""
    | DatabaseError m | PermissionError m | UnknownError m => m
    end
|}.

(** Types are erased at run time, so [result.error] need not have one of the
    declared shapes: it is a declared error or some other payload, which no
    guard recognises. *)
Inductive WireError :=
| Declared (error : AppError)
| Undeclared (payload : JsValue).

Global Instance WireError_types : ErrorTypes WireError := {|
  isZodValidationError e := match e with Declared a => isZodValidationError a | _ => false end;
  isDatabaseError e := match e with Declared a => isDatabaseError a | _ => false end;
  isPermissionError e := match e with Declared a => isPermissionError a | _ => false end;
  isUnknownError e := match e with Declared a => isUnknownError a | _ => false end;
  error_errors e := match e with Declared a => error_errors a | _ => ∅ end;
  error_message e := match e with Declared a => error_message a | _ => "" end
|}.


(** ** The state of the component (lines 18-31) *)

Record State := {
  clientValidation : bool;
  isPending : bool;
  submissionTime : option string;
  serverError : option string;
  form : UseFormReturn
}.

Definition initialState : State :=
  {| clientValidation := false; isPending := false; submissionTime := None;
     serverError := None;
     form := {| formValues := defaultValues; formErrors := ∅ |} |}.

Definition setClientValidation (checked : bool) (st : State) : State :=
  {| clientValidation := checked; isPending := isPending st;
     submissionTime := submissionTime st; serverError := serverError st;
     form := form st |}.

Definition setPending (pending : bool) (st : State) : State :=
  {| clientValidation := clientValidation st; isPending := pending;
     submissionTime := submissionTime st; serverError := serverError st;
     form := form st |}.

Definition setSubmissionTime (time : option string) (st : State) : State :=
  {| clientValidation := clientValidation st; isPending := isPending st;
     submissionTime := time; serverError := serverError st; form := form st |}.

Definition setServerError (error : option string) (st : State) : State :=
  {| clientValidation := clientValidation st; isPending := isPending st;
     submissionTime := submissionTime st; serverError := error; form := form st |}.

Definition setForm (f : UseFormReturn) (st : State) : State :=
  {| clientValidation := clientValidation st; isPending := isPending st;
     submissionTime := submissionTime st; serverError := serverError st; form := f |}.

(** ** What is rendered (lines 137-153)

    [{x && (...)}] renders its right-hand side only for a truthy [x]: neither
    for [null] nor for the empty string. *)

Definition truthy (x : option string) : option string :=
  match x with
  | Some text => if decide (text = "") then None else Some text
  | None => None
  end.

(** The text of the banner of lines 142-146, when it is rendered. *)
Definition serverErrorBanner (st : State) : option string := truthy (serverError st).

(** The timestamp shown by the banner of lines 147-153, when it is rendered
    (its locale formatting is left to the browser). *)
Definition successBanner (st : State) : option string := truthy (submissionTime st).

(** [disabled={isPending}] and the label of the button (lines 137-139). *)
Definition submitDisabled (st : State) : bool := isPending st.

Definition submitLabel (st : State) : string :=
  if isPending st then "Submitting..." else "Submit".

(** ** The page around the component

    Next to the React state, two counters that the code does not hold but
    the claims speak of: the asynchronous transitions started by
    [startTransition] that have not finished yet, and the log of the calls of
    [submitUserData], oldest first. *)

Record World := {
  ui : State;
  transitions : nat;
  requests : list FormData
}.

Definition initialWorld : World :=
  {| ui := initialState; transitions := 0; requests := [] |}.

Definition setUi (st : State) (w : World) : World :=
  {| ui := st; transitions := transitions w; requests := requests w |}.

(** [startTransition(async () => ...)]: the pending flag is raised for as
    long as the asynchronous callback runs. *)
Definition startTransition (w : World) : World :=
  {| ui := setPending true (ui w); transitions := S (transitions w);
     requests := requests w |}.

(** The callback has returned: the flag drops once no transition is left. *)
Definition finishTransition (w : World) : World :=
  {| ui := setPending (bool_decide (0 < pred (transitions w))) (ui w);
     transitions := pred (transitions w); requests := requests w |}.

(** The call [submitUserData(formData)] of line 45. *)
Definition submitUserData (formData : FormData) (w : World) : World :=
  {| ui := ui w; transitions := transitions w; requests := requests w ++ [formData] |}.

(** The result of [userSchema.safeParse]: the parsed record, or the errors
    by field.  [lib/schema] is not part of the sources at hand; the schema is
    a parameter. *)
Inductive SafeParse :=
| ParseSuccess (data : UserFormData)
| ParseError (errors : gmap string FieldError).

Definition Schema := UserFormData → SafeParse.

Definition zodResolver (schema : Schema) : Schema := schema.

(** Line 24: [resolver: clientValidation ? zodResolver(userSchema) : undefined]. *)
Definition resolver (userSchema : Schema) (st : State) : option Schema :=
  if clientValidation st then Some (zodResolver userSchema) else None.

(** The names under which the inputs of lines 77-128 are registered. *)
Definition registeredFields : list string := ["name"; "email"; "age"; "bio"].

Section Component.
Context {E : Type} `{!ErrorTypes E}.

(** Lines 47-62: the [try] block after the [await].  [now] is what
    [new Date().toISOString()] returns.  The keys of [result.error.errors]
    are pairwise distinct, so the order in which [forEach] visits them does
    not matter. *)
Definition handleResult (result : ActionResult E) (now : string) (st : State) : State :=
  match result with
  | Success =>
      let st := setSubmissionTime (Some now) st in
      setForm (form_reset (form st)) st
  | Failure error =>
      if isZodValidationError error then
        setForm
          (foldl (λ form entry,
                    form_setError entry.1 {| type := "server"; message := entry.2 |} form)
                 (form st) (map_to_list (error_errors error)))
          st
      else if isDatabaseError error || isPermissionError error || isUnknownError error
      then setServerError (Some (error_message error)) st
      else st
  end.

(** Lines 63-65: the [catch] block. *)
Definition handleException (error : Exception) (st : State) : State :=
  setServerError
    (Some ("An unexpected error occurred. Please try again. " +:+ Exception_toString error))
    st.

(** [onSubmit] up to the [await] of line 45: both messages are cleared, the
    transition starts, the record is encoded and the server action is
    called.  Should the encoding throw, the [catch] block runs at once and
    the transition is over. *)
Definition onSubmit_begin (data : UserFormData) (w : World) : World :=
  let w := setUi (setSubmissionTime None (setServerError None (ui w))) w in
  let w := startTransition w in
  match buildFormData (Object_entries data) with
  | inr formData => submitUserData formData w
  | inl error => finishTransition (setUi (handleException error (ui w)) w)
  end.

(** [onSubmit] from the [await] on: the promise has settled, the result or
    the exception is handled and the transition is over.  A rejected promise
    makes the [await] throw; an [undefined] result makes line 47 throw before
    any state is touched; both end in the [catch] block. *)
Definition onSubmit_settle (outcome : Settled E) (now : string) (w : World) : World :=
  let st :=
    match outcome with
    | Resolved result => handleResult result now (ui w)
    | Rejected error => handleException error (ui w)
    | ResolvedUndefined => handleException undefinedResultError (ui w)
    end in
  finishTransition (setUi st w).

(** One complete submission: [server] tells how the promise of the server
    action settles for a given payload. *)
Definition onSubmit (server : FormData → Settled E) (now : string)
    (data : UserFormData) (w : World) : World :=
  match buildFormData (Object_entries data) with
  | inr formData => onSubmit_settle (server formData) now (onSubmit_begin data w)
  | inl _ => onSubmit_begin data w
  end.

(** The promise of the server action settles as [outcome] on the payload
    encoded from [data]. *)
Definition answers (server : FormData → Settled E) (data : UserFormData)
    (outcome : Settled E) : Prop :=
  ∃ formData,
    buildFormData (Object_entries data) = inr formData ∧ server formData = outcome.

(** The submission throws [error] into the [catch] block of line 63: while
    encoding the record, in the call of the server action, or when reading
    the result.  Each of these comes before the first state update of the
    [try] block. *)
Inductive throws (server : FormData → Settled E) (data : UserFormData)
  : Exception → Prop :=
| throws_encoding error :
    buildFormData (Object_entries data) = inl error → throws server data error
| throws_action error :
    answers server data (Rejected error) → throws server data error
| throws_result :
    answers server data ResolvedUndefined → throws server data undefinedResultError.

(** [form.handleSubmit(onSubmit)] (line 76), as react-hook-form runs it.
    With a resolver, the current values are validated and the resolver's
    errors replace the stored ones: [onSubmit] runs on the parsed values, or
    the errors of the failed parse are stored (a failed parse has at least
    one) and [onSubmit] is not called.  Without a resolver the rules
    registered on the fields are checked; the fields of this form register
    none, so every registered field passes and its stored error is removed,
    as is an error under "root".  [onSubmit] then runs on the current values
    only if no error is left: an error stored under another key stays and
    blocks the submission. *)
Definition handleSubmit (userSchema : Schema) (w : World) : World :=
  let data := formValues (form (ui w)) in
  match resolver userSchema (ui w) with
  | Some validate =>
      match validate data with
      | ParseSuccess values =>
          onSubmit_begin values (setUi (setForm (form_setErrors ∅ (form (ui w))) (ui w)) w)
      | ParseError errors =>
          setUi (setForm (form_setErrors errors (form (ui w))) (ui w)) w
      end
  | None =>
      let errors := foldr delete (formErrors (form (ui w))) ("root" :: registeredFields) in
      let w := setUi (setForm (form_setErrors errors (form (ui w))) (ui w)) w in
      if decide (errors = ∅) then onSubmit_begin data w else w
  end.

(** ** The events of the page *)

Inductive Event :=
| Toggle (checked : bool)
| Change (data : UserFormData)
| Submit
| Settle (outcome : Settled E) (now : string).

(** What an event does, when it can happen: the switch and the inputs are
    always live, a disabled button submits nothing, and a promise settles
    only if one is awaited. *)
Definition react (userSchema : Schema) (event : Event) (w : World) : option World :=
  match event with
  | Toggle checked => Some (setUi (setClientValidation checked (ui w)) w)
  | Change data => Some (setUi (setForm (form_setValues data (form (ui w))) (ui w)) w)
  | Submit => if submitDisabled (ui w) then None else Some (handleSubmit userSchema w)
  | Settle outcome now =>
      if decide (0 < transitions w) then Some (onSubmit_settle outcome now w) else None
  end.

Definition run (userSchema : Schema) (events : list Event) (w : World) : option World :=
  foldl (λ current event, current ≫= react userSchema event) (Some w) events.

Definition reachable (userSchema : Schema) (w : World) : Prop :=
  ∃ events, run userSchema events initialWorld = Some w.

(** The presses of the submit button and the settled promises of a trace. *)
Definition isSubmit (event : Event) : bool :=
  match event with Submit => true | _ => false end.

Definition isSettle (event : Event) : bool :=
  match event with Settle _ _ => true | _ => false end.

Definition submissions (events : list Event) : nat :=
  length (filter (λ event, isSubmit event = true) events).

Definition settlements (events : list Event) : nat :=
  length (filter (λ event, isSettle event = true) events).

End Component.

(** The pending flag mirrors the transitions under way, of which there is at
    most one: the invariant of the page. *)
Definition pendingMatches (w : World) : Prop :=
  transitions w ≤ 1 ∧ isPending (ui w) = bool_decide (0 < transitions w).

(** ** Sample inputs *)

Definition sampleTime : string := "2024-05-01T10:00:00.000Z".

Definition sampleData : UserFormData :=
  {| name := JString "Jane";
     email := JString "jane@acme.com";
     age := JNumber "31";
     bio := JString "" |}.

(** A schema that only insists on a name. *)
Definition sampleSchema : Schema := λ data,
  if decide (name data = JString "")
  then ParseError {[ "name" := {| type := "too_small"; message := "Name is required" |} ]}
  else ParseSuccess data.

Definition validationFailure : AppError :=
  ZodValidationError {[ "email" := "Invalid email address" ]}.

(** A validation failure on two fields. *)
Definition twoFieldFailure : AppError :=
  ZodValidationError
    {[ "name" := "Name is required"; "email" := "Invalid email address" ]}.

Definition networkError : Exception :=
  {| errorName := "TypeError"; errorMessage := "fetch failed" |}.

(** A server action that settles the same way whatever it is sent. *)
Definition always {E : Type} (outcome : Settled E) : FormData → Settled E :=
  λ _, outcome.

(** * Properties *)

(** ** The encoding never throws *)

Lemma appendEntry_encoded (formData : FormData) (entry : string * JsValue) :
  appendEntry (inr formData) entry = inr (formData ++ encodedEntry entry).
Proof.
  destruct entry as [key value]. unfold appendEntry, encodedEntry, isSubmittable.
  destruct value as [| |s|n]; simpl.
  - by rewrite app_nil_r.
  - by rewrite app_nil_r.
  - destruct (decide (s = "")) as [->|Hs].
    + by rewrite app_nil_r.
    + rewrite !bool_decide_eq_true_2; [done|congruence].
  - done.
Qed.

Lemma foldl_appendEntry (entries : list (string * JsValue)) (formData : FormData) :
  foldl appendEntry (inr formData) entries = inr (formData ++ entries ≫= encodedEntry).
Proof.
  revert formData. induction entries as [|entry entries IH]; intros formData;
    cbn [foldl mbind list_bind].
  - by rewrite app_nil_r.
  - rewrite appendEntry_encoded, IH. by rewrite <- (assoc_L (++)).
Qed.

Lemma buildFormData_encoded (entries : list (string * JsValue)) :
  buildFormData entries = inr (entries ≫= encodedEntry).
Proof. unfold buildFormData. by rewrite foldl_appendEntry. Qed.

Lemma encodedEntry_omitted (key : string) (value : JsValue) :
  value = JNull ∨ value = JUndefined ∨ value = JString "" →
  encodedEntry (key, value) = [].
Proof. by intros [->|[->| ->]]. Qed.

Lemma encodedEntry_kept (key : string) (value : JsValue) :
  ¬ (value = JNull ∨ value = JUndefined ∨ value = JString "") →
  ∃ text, toString value = inr text ∧ encodedEntry (key, value) = [(key, text)].
Proof.
  intros Hkept. unfold encodedEntry. destruct value as [| |s|n]; simpl.
  - destruct Hkept; auto.
  - destruct Hkept; auto.
  - destruct (decide (s = "")) as [->|Hs]; [destruct Hkept; auto|]. by exists s.
  - by eexists.
Qed.

Lemma encodedEntry_cases (key : string) (value : JsValue) :
  (isSubmittable value = false ∧ encodedEntry (key, value) = []) ∨
  (∃ text, isSubmittable value = true ∧ toString value = inr text
           ∧ encodedEntry (key, value) = [(key, text)]).
Proof.
  destruct (decide (value = JNull ∨ value = JUndefined ∨ value = JString "")) as [H|H].
  - left. split; [|by apply encodedEntry_omitted].
    by destruct H as [->|[->| ->]].
  - right. destruct (encodedEntry_kept key value H) as (text & Htext & Henc).
    exists text. split_and!; [|done..].
    unfold isSubmittable. rewrite !bool_decide_eq_true_2; [done|naive_solver..].
Qed.

(** The default values: the empty name is left out, the age is sent as
    text. *)
Example buildFormData_defaultValues :
  buildFormData (Object_entries defaultValues)
  = inr [("email", "jdoe@acme.com"); ("age", "25"); ("bio", "I'm an American")].
Proof. reflexivity. Qed.

(** A number is never the empty string: zero is sent. *)
Example buildFormData_zero_age :
  buildFormData [("age", JNumber "0"); ("bio", JNull); ("name", JUndefined)]
  = inr [("age", "0")].
Proof. reflexivity. Qed.

Example Exception_toString_network :
  Exception_toString networkError = "TypeError: fetch failed".
Proof. reflexivity. Qed.

(** ** Reading the payload back *)

Lemma FormData_getAll_app (formData more : FormData) (key : string) :
  FormData_getAll (formData ++ more) key
  = FormData_getAll formData key ++ FormData_getAll more key.
Proof. unfold FormData_getAll. by rewrite filter_app, fmap_app. Qed.

Lemma FormData_getAll_own (key : string) (value : JsValue) :
  FormData_getAll (encodedEntry (key, value)) key = (encodedEntry (key, value)).*2.
Proof.
  destruct (encodedEntry_cases key value) as [[_ ->]|(text & _ & _ & ->)]; [done|].
  unfold FormData_getAll. by rewrite filter_cons_True.
Qed.

Lemma FormData_getAll_other (key key' : string) (value : JsValue) :
  key' ≠ key → FormData_getAll (encodedEntry (key', value)) key = [].
Proof.
  intros Hne.
  destruct (encodedEntry_cases key' value) as [[_ ->]|(text & _ & _ & ->)]; [done|].
  unfold FormData_getAll. by rewrite filter_cons_False.
Qed.

Lemma FormData_getAll_absent (entries : list (string * JsValue)) (key : string) :
  key ∉ entries.*1 → FormData_getAll (entries ≫= encodedEntry) key = [].
Proof.
  induction entries as [|[key' value] entries IH]; intros Hkey; [done|].
  cbn [mbind list_bind]. apply not_elem_of_cons in Hkey as [Hne Hkey].
  rewrite FormData_getAll_app, FormData_getAll_other, IH; done.
Qed.

Lemma FormData_getAll_present (entries : list (string * JsValue)) (key : string)
    (value : JsValue) :
  NoDup entries.*1 → (key, value) ∈ entries →
  FormData_getAll (entries ≫= encodedEntry) key = (encodedEntry (key, value)).*2.
Proof.
  induction entries as [|[key' value'] entries IH]; intros Hnodup Hin.
  - by apply elem_of_nil in Hin.
  - cbn [mbind list_bind]. rewrite FormData_getAll_app.
    apply NoDup_cons in Hnodup as [Hfresh Hnodup].
    apply elem_of_cons in Hin as [Heq|Hin].
    + injection Heq as <- <-.
      rewrite FormData_getAll_own, FormData_getAll_absent by done. by rewrite app_nil_r.
    + assert (key' ≠ key) as Hne.
      { intros ->. apply Hfresh. apply list_elem_of_fmap. by exists (key, value). }
      rewrite FormData_getAll_other by done. by apply IH.
Qed.

Lemma Object_entries_keys (data : UserFormData) :
  (Object_entries data).*1 = ["name"; "email"; "age"; "bio"].
Proof. done. Qed.

Lemma Object_entries_NoDup (data : UserFormData) : NoDup (Object_entries data).*1.
Proof. rewrite Object_entries_keys. by apply (bool_decide_unpack _). Qed.

(** ** The loop over the errors of a validation failure *)

Lemma setError_fold_values (entries : list (string * string)) (f : UseFormReturn) :
  formValues
    (foldl (λ form entry, form_setError entry.1 {| type := "server"; message := entry.2 |} form)
       f entries)
  = formValues f.
Proof.
  revert f. induction entries as [|entry entries IH]; intros f; cbn [foldl]; [done|].
  by rewrite IH.
Qed.

Lemma setError_fold_lookup (entries : list (string * string)) (f : UseFormReturn)
    (key : string) :
  NoDup entries.*1 →
  formErrors
    (foldl (λ form entry, form_setError entry.1 {| type := "server"; message := entry.2 |} form)
       f entries) !! key
  = match (list_to_map entries : gmap string string) !! key with
    | Some text => Some {| type := "server"; message := text |}
    | None => formErrors f !! key
    end.
Proof.
  revert f. induction entries as [|[k text] entries IH]; intros f Hnodup.
  - done.
  - cbn [foldl]. apply NoDup_cons in Hnodup as [Hfresh Hnodup].
    rewrite IH by done. cbn [list_to_map foldr fst snd uncurry].
    destruct (decide (k = key)) as [->|Hne].
    + rewrite lookup_insert_eq.
      rewrite (not_elem_of_list_to_map_1 _ _ Hfresh).
      unfold form_setError; cbn. by rewrite lookup_insert_eq.
    + rewrite lookup_insert_ne by done.
      destruct (list_to_map entries !! key); [done|].
      unfold form_setError; cbn. by rewrite lookup_insert_ne.
Qed.

Section Properties.
Context {E : Type} `{!ErrorTypes E}.
Implicit Types (server : FormData → Settled E) (w : World) (data : UserFormData).

(** ** The two halves of [onSubmit] *)

Lemma onSubmit_begin_sends data w :
  onSubmit_begin data w
  = {| ui := setPending true (setSubmissionTime None (setServerError None (ui w)));
       transitions := S (transitions w);
       requests := requests w ++ [Object_entries data ≫= encodedEntry] |}.
Proof. unfold onSubmit_begin. by rewrite buildFormData_encoded. Qed.

Lemma onSubmit_settles server now data w outcome :
  answers server data outcome →
  onSubmit server now data w = onSubmit_settle outcome now (onSubmit_begin data w).
Proof. intros (formData & Hbuild & Hanswer). unfold onSubmit. by rewrite Hbuild, Hanswer. Qed.

Lemma answers_total server data : ∃ outcome, answers server data outcome.
Proof. eexists _, _. split; [apply buildFormData_encoded|done]. Qed.

Lemma handleResult_validation (error : E) now (st : State) (key : string) :
  isZodValidationError error = true →
  formErrors (form (handleResult (Failure error) now st)) !! key
  = match error_errors error !! key with
    | Some text => Some {| type := "server"; message := text |}
    | None => formErrors (form st) !! key
    end.
Proof.
  intros Hzod. unfold handleResult. rewrite Hzod. cbn [form setForm].
  rewrite setError_fold_lookup by apply NoDup_fst_map_to_list.
  by rewrite list_to_map_to_list.
Qed.

(** C1: when the server result is a failure carrying a Zod validation error,
    every key of the error's per-field map gets a field error of type
    'server' with that key's message, the other field errors and the values
    stay as they were, and the banner message is not set. *)
Theorem validation_failure_sets_field_errors server now data w (error : E) :
  answers server data (Resolved (Failure error)) →
  isZodValidationError error = true →
  let w' := onSubmit server now data w in
  (∀ key text, error_errors error !! key = Some text →
     formErrors (form (ui w')) !! key = Some {| type := "server"; message := text |})
  ∧ (∀ key, error_errors error !! key = None →
       formErrors (form (ui w')) !! key = formErrors (form (ui w)) !! key)
  ∧ formValues (form (ui w')) = formValues (form (ui w))
  ∧ serverError (ui w') = None
  ∧ serverErrorBanner (ui w') = None
  ∧ submissionTime (ui w') = None.
Proof.
  intros Hanswer Hzod w'. subst w'.
  rewrite (onSubmit_settles _ _ _ _ _ Hanswer), onSubmit_begin_sends.
  unfold onSubmit_settle, finishTransition. cbn [ui setUi setPending form].
  split_and!.
  - intros key text Hkey. rewrite handleResult_validation by done. by rewrite Hkey.
  - intros key Hkey. rewrite handleResult_validation by done. by rewrite Hkey.
  - unfold handleResult. rewrite Hzod. cbn. by rewrite setError_fold_values.
  - unfold handleResult. by rewrite Hzod.
  - unfold serverErrorBanner, handleResult. by rewrite Hzod.
  - unfold handleResult. by rewrite Hzod.
Qed.

Lemma handleResult_banner (error : E) now (st : State) :
  isZodValidationError error = false →
  isDatabaseError error || isPermissionError error || isUnknownError error = true →
  handleResult (Failure error) now st = setServerError (Some (error_message error)) st.
Proof. intros Hzod Hkind. unfold handleResult. by rewrite Hzod, Hkind. Qed.

Lemma truthy_nonempty (text : string) : text ≠ "" → truthy (Some text) = Some text.
Proof. intros Htext. unfold truthy. by destruct (decide (text = "")). Qed.

(** C3, as the code has it: when the server action or the submission code
    around it throws, the banner holds the fixed sentence followed by a space
    and the string conversion of the thrown error; it is rendered, no field
    error is set, the values are kept and no success timestamp is
    recorded. *)
Theorem exception_shows_generic_banner server now data w (error : Exception) :
  throws server data error →
  let w' := onSubmit server now data w in
  let text :=
    "An unexpected error occurred. Please try again. " +:+ Exception_toString error in
  serverError (ui w') = Some text
  ∧ serverErrorBanner (ui w') = Some text
  ∧ form (ui w') = form (ui w)
  ∧ submissionTime (ui w') = None
  ∧ successBanner (ui w') = None.
Proof.
  intros Hthrows w' text. subst w' text.
  destruct Hthrows as [error Hbuild|error Hanswer|Hanswer].
  - unfold onSubmit, onSubmit_begin. rewrite Hbuild. by split_and!.
  - rewrite (onSubmit_settles _ _ _ _ _ Hanswer), onSubmit_begin_sends. by split_and!.
  - rewrite (onSubmit_settles _ _ _ _ _ Hanswer), onSubmit_begin_sends. by split_and!.
Qed.

(** C4: when the server result is the success marker, the success timestamp
    is the current time and is shown in the success banner, the form fields
    are back to their default values (and the field errors dropped), and no
    banner error message is set. *)
Theorem success_records_time_and_resets server now data w :
  answers server data (Resolved Success) →
  now ≠ "" →
  let w' := onSubmit server now data w in
  submissionTime (ui w') = Some now
  ∧ successBanner (ui w') = Some now
  ∧ formValues (form (ui w')) = defaultValues
  ∧ formErrors (form (ui w')) = ∅
  ∧ serverError (ui w') = None
  ∧ serverErrorBanner (ui w') = None.
Proof.
  intros Hanswer Hnow w'. subst w'.
  rewrite (onSubmit_settles _ _ _ _ _ Hanswer), onSubmit_begin_sends.
  split_and!; try done.
  unfold successBanner. cbn. by apply truthy_nonempty.
Qed.

(** C10: when the server result is a failure that none of the four guards
    recognises, handling it changes nothing: values and field errors are as
    before the submission, and neither a banner message nor a success
    timestamp is set. *)
Theorem unrecognised_failure_is_dropped server now data w (error : E) :
  answers server data (Resolved (Failure error)) →
  isZodValidationError error = false →
  isDatabaseError error = false →
  isPermissionError error = false →
  isUnknownError error = false →
  let w' := onSubmit server now data w in
  (∀ st, handleResult (Failure error) now st = st)
  ∧ form (ui w') = form (ui w)
  ∧ serverError (ui w') = None
  ∧ serverErrorBanner (ui w') = None
  ∧ submissionTime (ui w') = None
  ∧ successBanner (ui w') = None.
Proof.
  intros Hanswer Hzod Hdb Hperm Hunk w'. subst w'.
  assert (∀ st, handleResult (Failure error) now st = st) as Hnoop.
  { intros st. unfold handleResult. by rewrite Hzod, Hdb, Hperm, Hunk. }
  rewrite (onSubmit_settles _ _ _ _ _ Hanswer), onSubmit_begin_sends.
  unfold onSubmit_settle. rewrite Hnoop. by split_and!.
Qed.

(** C9: a submission begins by clearing the banner message and the success
    timestamp; once it has completed at most one of the two is set, and the
    outcome is the same whatever the two held before. *)
Theorem submission_clears_previous_messages server now data w :
  let w' := onSubmit server now data w in
  (serverError (ui (onSubmit_begin data w)) = None
   ∧ submissionTime (ui (onSubmit_begin data w)) = None)
  ∧ (serverError (ui w') = None ∨ submissionTime (ui w') = None)
  ∧ (∀ (text time : option string),
       onSubmit server now data
         (setUi (setSubmissionTime time (setServerError text (ui w))) w) = w').
Proof.
  intros w'. subst w'.
  destruct (answers_total server data) as [outcome Hanswer].
  rewrite (onSubmit_settles _ _ _ _ _ Hanswer).
  split_and!.
  - by rewrite onSubmit_begin_sends.
  - by rewrite onSubmit_begin_sends.
  - rewrite onSubmit_begin_sends. unfold onSubmit_settle. cbn [ui setUi finishTransition].
    destruct outcome as [[|error]|error|]; cbn.
    + by left.
    + right. destruct (isZodValidationError error); [done|].
      by destruct (isDatabaseError error || isPermissionError error || isUnknownError error).
    + by right.
    + by right.
  - intros text time.
    rewrite (onSubmit_settles _ _ _ _ _ Hanswer). by rewrite !onSubmit_begin_sends.
Qed.

(** C8: a field whose value is null, undefined or the empty string gets no
    entry in the FormData sent to the server action; every other field
    contributes exactly one entry, the string conversion of its value. *)
Theorem empty_fields_are_omitted server now data w :
  ∃ formData,
    requests (onSubmit server now data w) = requests w ++ [formData]
    ∧ (let sent (key : string) (value : JsValue) : Prop :=
         if decide (value = JNull ∨ value = JUndefined ∨ value = JString "")
         then FormData_getAll formData key = []
         else ∃ text, toString value = inr text ∧ FormData_getAll formData key = [text]
       in sent "name" (name data) ∧ sent "email" (email data)
          ∧ sent "age" (age data) ∧ sent "bio" (bio data)).
Proof.
  exists (Object_entries data ≫= encodedEntry). split.
  - destruct (answers_total server data) as [outcome Hanswer].
    rewrite (onSubmit_settles _ _ _ _ _ Hanswer). by rewrite onSubmit_begin_sends.
  - assert (∀ key value, (key, value) ∈ Object_entries data →
      if decide (value = JNull ∨ value = JUndefined ∨ value = JString "")
      then FormData_getAll (Object_entries data ≫= encodedEntry) key = []
      else ∃ text, toString value = inr text
                   ∧ FormData_getAll (Object_entries data ≫= encodedEntry) key = [text])
      as Hfield.
    { intros key value Hin.
      rewrite (FormData_getAll_present _ key value (Object_entries_NoDup data) Hin).
      case_decide as Hvalue.
      - by rewrite encodedEntry_omitted.
      - destruct (encodedEntry_kept key value Hvalue) as (text & Htext & ->).
        by exists text. }
    cbv zeta. split_and!; apply Hfield; unfold Object_entries; set_solver.
Qed.

(** With the toggle on, the sample schema stops a submission without a name;
    with the toggle off the same values are sent. *)
Example handleSubmit_blocked :
  requests (handleSubmit sampleSchema
              (setUi (setClientValidation true initialState) initialWorld)) = [].
Proof. reflexivity. Qed.

Example handleSubmit_unvalidated :
  requests (handleSubmit sampleSchema initialWorld)
  = [[("email", "jdoe@acme.com"); ("age", "25"); ("bio", "I'm an American")]].
Proof. reflexivity. Qed.

(** A field error set for a key that names no input stays through the next
    press of the button and stops it, also with the toggle off. *)
Example handleSubmit_stale_error :
  requests (handleSubmit sampleSchema
              (setUi (setForm (form_setError "phone"
                                 {| type := "server"; message := "Unknown field" |}
                                 (form initialState)) initialState) initialWorld)) = [].
Proof. reflexivity. Qed.


(** ** At most one submission at a time *)

Lemma pendingMatches_initial : pendingMatches initialWorld.
Proof. split; [cbn; lia|done]. Qed.

Lemma pendingMatches_idle w :
  pendingMatches w → isPending (ui w) = false → transitions w = 0.
Proof.
  intros [Hle Hflag] Hidle. rewrite Hidle in Hflag.
  symmetry in Hflag. apply bool_decide_eq_false in Hflag. lia.
Qed.

Lemma pendingMatches_handleSubmit (userSchema : Schema) w :
  pendingMatches w → submitDisabled (ui w) = false →
  pendingMatches (handleSubmit userSchema w).
Proof.
  intros Hinv Hidle. pose proof (pendingMatches_idle w Hinv Hidle) as Hzero.
  unfold handleSubmit, resolver, zodResolver.
  destruct (clientValidation (ui w)).
  - destruct (userSchema (formValues (form (ui w)))) as [values|errors].
    + rewrite onSubmit_begin_sends. split; cbn; [lia|]. by rewrite Hzero.
    + destruct Hinv as [Hle Hflag]. by split.
  - cbv zeta. case_decide.
    + rewrite onSubmit_begin_sends. split; cbn; [lia|]. by rewrite Hzero.
    + destruct Hinv as [Hle Hflag]. by split.
Qed.

Lemma pendingMatches_settle (outcome : Settled E) now w :
  pendingMatches w → pendingMatches (onSubmit_settle outcome now w).
Proof.
  intros [Hle Hflag]. unfold onSubmit_settle, finishTransition.
  split; cbn [transitions ui setUi setPending isPending]; [lia|done].
Qed.

Lemma pendingMatches_react (userSchema : Schema) (event : Event) w w' :
  pendingMatches w → react userSchema event w = Some w' → pendingMatches w'.
Proof.
  intros Hinv Hreact. destruct event as [checked|data| |outcome now]; cbn in Hreact.
  - injection Hreact as <-. destruct Hinv. by split.
  - injection Hreact as <-. destruct Hinv. by split.
  - destruct (submitDisabled (ui w)) eqn:Hidle; [done|].
    injection Hreact as <-. by apply pendingMatches_handleSubmit.
  - case_decide; [|done]. injection Hreact as <-. by apply pendingMatches_settle.
Qed.

Lemma run_snoc (userSchema : Schema) (events : list Event) (event : Event) w :
  run userSchema (events ++ [event]) w
  = run userSchema events w ≫= react userSchema event.
Proof. unfold run. by rewrite foldl_app. Qed.

Lemma pendingMatches_reachable (userSchema : Schema) w :
  reachable userSchema w → pendingMatches w.
Proof.
  intros [events Hrun]. revert w Hrun.
  induction events as [|event events IH] using rev_ind; intros w Hrun.
  - injection Hrun as <-. apply pendingMatches_initial.
  - rewrite run_snoc in Hrun.
    destruct (run userSchema events initialWorld) as [w0|] eqn:Hprefix; [|done].
    cbn in Hrun. eapply pendingMatches_react; [by apply IH|done].
Qed.

(** C6: in every reachable state at most one submission is in flight; the
    pending flag is set exactly while one is, and then the submit button is
    disabled and a submit event starts nothing.  Once the submission has
    settled the button is enabled again. *)
Theorem single_submission_in_flight (userSchema : Schema) w :
  reachable userSchema w →
  transitions w ≤ 1
  ∧ (isPending (ui w) = true ↔ transitions w = 1)
  ∧ (transitions w = 1 →
       submitDisabled (ui w) = true
       ∧ submitLabel (ui w) = "Submitting..."
       ∧ react userSchema Submit w = None
       ∧ ∀ (outcome : Settled E) now w',
           react userSchema (Settle outcome now) w = Some w' →
           transitions w' = 0 ∧ submitDisabled (ui w') = false).
Proof.
  intros Hreach. destruct (pendingMatches_reachable _ _ Hreach) as [Hle Hflag].
  assert (isPending (ui w) = true ↔ transitions w = 1) as Hiff.
  { rewrite Hflag. rewrite bool_decide_eq_true. lia. }
  split_and!; [done|done|].
  intros Hone. apply Hiff in Hone as Hpending.
  unfold submitDisabled, submitLabel. cbn [react]. unfold submitDisabled.
  rewrite Hpending. split_and!; [done..|].
  intros outcome now w' Hsettle. case_decide; [|done]. injection Hsettle as <-.
  unfold onSubmit_settle, finishTransition. cbn. by rewrite Hone.
Qed.

End Properties.

(** ** Failures of the declared error type *)


(** C2, as the code has it: when the server result is a failure carrying a
    database, permission or unknown error, the banner state is set to that
    error's message and no field error is set; the banner is rendered with
    the message unless the message is the empty string. *)
Theorem banner_failure_sets_server_error (server : FormData → Settled AppError)
    (now : string) (data : UserFormData) (w : World) (error : AppError) (text : string) :
  answers server data (Resolved (Failure error)) →
  error = DatabaseError text ∨ error = PermissionError text ∨ error = UnknownError text →
  let w' := onSubmit server now data w in
  serverError (ui w') = Some text
  ∧ serverErrorBanner (ui w') = (if decide (text = "") then None else Some text)
  ∧ form (ui w') = form (ui w)
  ∧ submissionTime (ui w') = None
  ∧ successBanner (ui w') = None.
Proof.
  intros Hanswer Hkind w'. subst w'.
  rewrite (onSubmit_settles _ _ _ _ _ Hanswer), onSubmit_begin_sends.
  unfold onSubmit_settle. rewrite handleResult_banner.
  - by destruct Hkind as [->|[->| ->]].
  - by destruct Hkind as [->|[->| ->]].
  - by destruct Hkind as [->|[->| ->]].
Qed.


(** ** The claims at sample inputs *)

Lemma validation_failure_sets_field_errors_witness :
  answers (always (Resolved (Failure validationFailure))) sampleData
    (Resolved (Failure validationFailure))
  ∧ isZodValidationError validationFailure = true
  ∧ formErrors (form (ui (onSubmit (always (Resolved (Failure validationFailure)))
                            sampleTime sampleData initialWorld))) !! "email"
    = Some {| type := "server"; message := "Invalid email address" |}.
Proof.
  assert (answers (always (Resolved (Failure validationFailure))) sampleData
            (Resolved (Failure validationFailure))) as Hanswer.
  { eexists. split; reflexivity. }
  assert (isZodValidationError validationFailure = true) as Hzod by reflexivity.
  split; [exact Hanswer|]. split; [exact Hzod|].
  apply (validation_failure_sets_field_errors _ sampleTime sampleData initialWorld
           validationFailure Hanswer Hzod).
  vm_compute. reflexivity.
Defined.

(** A database error with an empty message: the banner state is set, yet no
    banner is rendered. *)
Lemma empty_database_message_shows_no_banner :
  serverErrorBanner
    (ui (onSubmit (always (Resolved (Failure (DatabaseError ""))))
           sampleTime sampleData initialWorld))
  ≠ Some (error_message (DatabaseError "")).
Proof. vm_compute. discriminate. Qed.


Lemma banner_failure_sets_server_error_witness :
  answers (always (Resolved (Failure (PermissionError "Not allowed")))) sampleData
    (Resolved (Failure (PermissionError "Not allowed")))
  ∧ (PermissionError "Not allowed" = DatabaseError "Not allowed"
     ∨ PermissionError "Not allowed" = PermissionError "Not allowed"
     ∨ PermissionError "Not allowed" = UnknownError "Not allowed")
  ∧ serverErrorBanner
      (ui (onSubmit (always (Resolved (Failure (PermissionError "Not allowed"))))
             sampleTime sampleData initialWorld))
    = Some "Not allowed".
Proof.
  assert (answers (always (Resolved (Failure (PermissionError "Not allowed")))) sampleData
            (Resolved (Failure (PermissionError "Not allowed")))) as Hanswer.
  { eexists. split; reflexivity. }
  assert (PermissionError "Not allowed" = DatabaseError "Not allowed"
          ∨ PermissionError "Not allowed" = PermissionError "Not allowed"
          ∨ PermissionError "Not allowed" = UnknownError "Not allowed") as Hkind.
  { right. left. reflexivity. }
  split; [exact Hanswer|]. split; [exact Hkind|].
  apply (banner_failure_sets_server_error _ sampleTime sampleData initialWorld
           _ "Not allowed" Hanswer Hkind).
Defined.

(** A thrown network error: the banner is longer than the fixed sentence. *)
Lemma network_error_banner_is_not_the_fixed_text :
  serverError
    (ui (onSubmit (always (E:=AppError) (Rejected networkError))
           sampleTime sampleData initialWorld))
  ≠ Some "An unexpected error occurred. Please try again.".
Proof. vm_compute. discriminate. Qed.

Lemma exception_shows_generic_banner_witness :
  (throws (always (E:=AppError) (Rejected networkError)) sampleData networkError
   ∧ serverErrorBanner
       (ui (onSubmit (always (E:=AppError) (Rejected networkError))
              sampleTime sampleData initialWorld))
     = Some "An unexpected error occurred. Please try again. TypeError: fetch failed")
  ∧ (throws (always (E:=AppError) ResolvedUndefined) sampleData undefinedResultError
     ∧ submissionTime
         (ui (onSubmit (always (E:=AppError) ResolvedUndefined)
                sampleTime sampleData initialWorld))
       = None).
Proof.
  assert (throws (always (E:=AppError) (Rejected networkError)) sampleData networkError)
    as Haction.
  { apply throws_action. eexists. split; reflexivity. }
  assert (throws (always (E:=AppError) ResolvedUndefined) sampleData undefinedResultError)
    as Hresult.
  { apply throws_result. eexists. split; reflexivity. }
  split.
  - split; [exact Haction|].
    apply (exception_shows_generic_banner _ sampleTime sampleData initialWorld
             networkError Haction).
  - split; [exact Hresult|].
    apply (exception_shows_generic_banner _ sampleTime sampleData initialWorld
             undefinedResultError Hresult).
Defined.

Lemma success_records_time_and_resets_witness :
  answers (always (E:=AppError) (Resolved Success)) sampleData (Resolved Success)
  ∧ sampleTime ≠ ""
  ∧ successBanner
      (ui (onSubmit (always (E:=AppError) (Resolved Success))
             sampleTime sampleData initialWorld))
    = Some sampleTime
  ∧ formValues
      (form (ui (onSubmit (always (E:=AppError) (Resolved Success))
                   sampleTime sampleData initialWorld)))
    = defaultValues.
Proof.
  assert (answers (always (E:=AppError) (Resolved Success)) sampleData (Resolved Success))
    as Hanswer.
  { eexists. split; reflexivity. }
  assert (sampleTime ≠ "") as Hnow.
  { vm_compute. discriminate. }
  split; [exact Hanswer|]. split; [exact Hnow|].
  pose proof (success_records_time_and_resets _ sampleTime sampleData initialWorld
                Hanswer Hnow) as (_ & Hbanner & Hvalues & _).
  split; [exact Hbanner|exact Hvalues].
Defined.

Lemma unrecognised_failure_is_dropped_witness :
  answers (always (Resolved (Failure (Undeclared (JString "quota exceeded"))))) sampleData
    (Resolved (Failure (Undeclared (JString "quota exceeded"))))
  ∧ isZodValidationError (Undeclared (JString "quota exceeded")) = false
  ∧ isDatabaseError (Undeclared (JString "quota exceeded")) = false
  ∧ isPermissionError (Undeclared (JString "quota exceeded")) = false
  ∧ isUnknownError (Undeclared (JString "quota exceeded")) = false
  ∧ (form (ui (onSubmit
                 (always (Resolved (Failure (Undeclared (JString "quota exceeded")))))
                 sampleTime sampleData initialWorld))
     = form (ui initialWorld)
     ∧ serverError
         (ui (onSubmit
                (always (Resolved (Failure (Undeclared (JString "quota exceeded")))))
                sampleTime sampleData initialWorld))
       = None
     ∧ submissionTime
         (ui (onSubmit
                (always (Resolved (Failure (Undeclared (JString "quota exceeded")))))
                sampleTime sampleData initialWorld))
       = None).
Proof.
  assert (answers (always (Resolved (Failure (Undeclared (JString "quota exceeded")))))
            sampleData (Resolved (Failure (Undeclared (JString "quota exceeded")))))
    as Hanswer.
  { eexists. split; reflexivity. }
  assert (isZodValidationError (Undeclared (JString "quota exceeded")) = false)
    as Hzod by reflexivity.
  assert (isDatabaseError (Undeclared (JString "quota exceeded")) = false)
    as Hdb by reflexivity.
  assert (isPermissionError (Undeclared (JString "quota exceeded")) = false)
    as Hperm by reflexivity.
  assert (isUnknownError (Undeclared (JString "quota exceeded")) = false)
    as Hunk by reflexivity.
  split; [exact Hanswer|]. split; [exact Hzod|]. split; [exact Hdb|].
  split; [exact Hperm|]. split; [exact Hunk|].
  pose proof (unrecognised_failure_is_dropped _ sampleTime sampleData initialWorld
                (Undeclared (JString "quota exceeded")) Hanswer Hzod Hdb Hperm Hunk)
    as (_ & Hform & Herror & _ & Htime & _).
  revert Hform Herror Htime.
  generalize (onSubmit (always (Resolved (Failure (Undeclared (JString "quota exceeded")))))
                sampleTime sampleData initialWorld).
  intros w Hform Herror Htime. exact (conj Hform (conj Herror Htime)).
Defined.

Lemma single_submission_in_flight_witness :
  reachable (E:=AppError) sampleSchema
    (handleSubmit sampleSchema
       (setUi (setForm (form_setValues sampleData (form initialState)) initialState)
          initialWorld))
  ∧ react (E:=AppError) sampleSchema Submit
      (handleSubmit sampleSchema
         (setUi (setForm (form_setValues sampleData (form initialState)) initialState)
            initialWorld))
    = None.
Proof.
  assert (reachable (E:=AppError) sampleSchema
            (handleSubmit sampleSchema
               (setUi (setForm (form_setValues sampleData (form initialState)) initialState)
                  initialWorld))) as Hreach.
  { exists [Change sampleData; Submit]. reflexivity. }
  split; [exact Hreach|].
  apply (single_submission_in_flight sampleSchema _ Hreach). reflexivity.
Defined.

(** * Further properties of the submission code *)

(** ** The encoding loop (lines 39-44) *)

Lemma encodedEntry_keys (entry : string * JsValue) :
  (encodedEntry entry).*1 = if isSubmittable entry.2 then [entry.1] else [].
Proof.
  destruct entry as [key value]. cbn [fst snd].
  destruct (encodedEntry_cases key value) as [[-> ->]|(text & -> & _ & ->)]; done.
Qed.

Lemma encoded_keys (entries : list (string * JsValue)) :
  (entries ≫= encodedEntry).*1
  = (filter (λ entry, isSubmittable entry.2 = true) entries).*1.
Proof.
  induction entries as [|entry entries IH]; [done|].
  cbn [mbind list_bind]. rewrite fmap_app, encodedEntry_keys, IH.
  destruct (isSubmittable entry.2) eqn:Hkeep.
  - by rewrite filter_cons_True.
  - rewrite filter_cons_False; [done|]. by rewrite Hkeep.
Qed.

Lemma isSubmittable_true (value : JsValue) :
  isSubmittable value = true
  ↔ value ≠ JNull ∧ value ≠ JUndefined ∧ value ≠ JString "".
Proof.
  unfold isSubmittable. rewrite !andb_true_iff, !bool_decide_eq_true. tauto.
Qed.

(** X1: on an object whose property values are null, undefined, strings or
    numbers the encoding loop never throws, since the test of line 41 keeps
    [toString] away from null and undefined.  Its payload is, property by
    property in the object's own order, nothing for null, undefined and the
    empty string and the key with the text of the value otherwise. *)
Theorem encoding_never_throws (entries : list (string * JsValue)) :
  buildFormData entries
  = inr (entries ≫= λ entry,
           match entry.2 with
           | JNull | JUndefined => []
           | JString s => if decide (s = "") then [] else [(entry.1, s)]
           | JNumber text => [(entry.1, text)]
           end).
Proof. exact (buildFormData_encoded entries). Qed.

(** X2: whatever the order of the object's properties, the payload lists the
    keys of the submitted ones in that order; when the object has each key
    once, so has the payload. *)
Theorem payload_keeps_field_order (entries : list (string * JsValue))
    (formData : FormData) :
  buildFormData entries = inr formData →
  NoDup entries.*1 →
  formData.*1
  = (filter (λ entry, entry.2 ≠ JNull ∧ entry.2 ≠ JUndefined ∧ entry.2 ≠ JString "")
       entries).*1
  ∧ formData.*1 `sublist_of` entries.*1
  ∧ NoDup formData.*1.
Proof.
  intros Hbuild Hnodup. rewrite buildFormData_encoded in Hbuild. injection Hbuild as <-.
  assert ((entries ≫= encodedEntry).*1
          = (filter (λ entry, entry.2 ≠ JNull ∧ entry.2 ≠ JUndefined ∧ entry.2 ≠ JString "")
               entries).*1) as Hkeys.
  { rewrite encoded_keys. f_equal. apply list_filter_iff.
    intros entry. apply isSubmittable_true. }
  assert ((entries ≫= encodedEntry).*1 `sublist_of` entries.*1) as Hsub.
  { rewrite Hkeys. apply fmap_sublist, sublist_filter. }
  split_and!; [done..|]. by eapply sublist_NoDup.
Qed.

(** ** Handling the result (lines 47-62) *)

Lemma UseFormReturn_eq (f g : UseFormReturn) :
  formValues f = formValues g → formErrors f = formErrors g → f = g.
Proof. destruct f, g; cbn. by intros -> ->. Qed.

Lemma setError_fold_permutation (entries entries' : list (string * string))
    (f : UseFormReturn) :
  NoDup entries.*1 → entries ≡ₚ entries' →
  foldl (λ form entry, form_setError entry.1 {| type := "server"; message := entry.2 |} form)
    f entries
  = foldl (λ form entry, form_setError entry.1 {| type := "server"; message := entry.2 |} form)
      f entries'.
Proof.
  intros Hnodup Hperm.
  assert (NoDup entries'.*1) as Hnodup' by by rewrite <- Hperm.
  apply UseFormReturn_eq.
  - by rewrite !setError_fold_values.
  - apply map_eq. intros key. rewrite !setError_fold_lookup by done.
    by rewrite (list_to_map_proper entries entries').
Qed.

Section Further.
Context {E : Type} `{!ErrorTypes E}.
Implicit Types (server : FormData → Settled E) (w : World) (data : UserFormData).

(** X3: the field errors set for a validation failure do not depend on the
    order in which [forEach] visits the properties of [result.error.errors]:
    any listing of the object's entries, each key once, gives the same form. *)
Theorem validation_errors_in_any_order (error : E) (now : string) (st : State)
    (entries : list (string * string)) :
  isZodValidationError error = true →
  NoDup entries.*1 →
  list_to_map entries = error_errors error →
  form (handleResult (Failure error) now st)
  = foldl (λ form entry, form_setError entry.1 {| type := "server"; message := entry.2 |} form)
      (form st) entries.
Proof.
  intros Hzod Hnodup Hentries. unfold handleResult. rewrite Hzod. cbn [form setForm].
  apply setError_fold_permutation; [apply NoDup_fst_map_to_list|].
  rewrite <- Hentries. by apply map_to_list_to_map.
Qed.

(** X4: a submission that does not succeed keeps what the user typed and
    removes no field error: only a success resets the form. *)
Theorem failed_submission_keeps_input server now data w (outcome : Settled E) :
  answers server data outcome →
  outcome ≠ Resolved Success →
  let w' := onSubmit server now data w in
  formValues (form (ui w')) = formValues (form (ui w))
  ∧ (∀ key, is_Some (formErrors (form (ui w)) !! key) →
            is_Some (formErrors (form (ui w')) !! key))
  ∧ submissionTime (ui w') = None
  ∧ clientValidation (ui w') = clientValidation (ui w).
Proof.
  intros Hanswer Hfailed w'. subst w'.
  rewrite (onSubmit_settles _ _ _ _ _ Hanswer), onSubmit_begin_sends.
  unfold onSubmit_settle, finishTransition. cbn [ui setUi setPending form].
  destruct outcome as [[|error]|error|]; [done| |by split_and!..].
  destruct (isZodValidationError error) eqn:Hzod.
  - split_and!.
    + unfold handleResult. rewrite Hzod. cbn. by rewrite setError_fold_values.
    + intros key Hkey. rewrite handleResult_validation by done.
      by destruct (error_errors error !! key).
    + unfold handleResult. by rewrite Hzod.
    + unfold handleResult. by rewrite Hzod.
  - unfold handleResult. rewrite Hzod.
    by destruct (isDatabaseError error || isPermissionError error || isUnknownError error).
Qed.

(** X5: a validation failure whose error map is empty gives no feedback at
    all: no field error is added, no banner and no success message is
    rendered. *)
Theorem empty_validation_failure_is_silent server now data w (error : E) :
  answers server data (Resolved (Failure error)) →
  isZodValidationError error = true →
  error_errors error = ∅ →
  let w' := onSubmit server now data w in
  form (ui w') = form (ui w)
  ∧ serverErrorBanner (ui w') = None
  ∧ successBanner (ui w') = None.
Proof.
  intros Hanswer Hzod Hempty w'. subst w'.
  rewrite (onSubmit_settles _ _ _ _ _ Hanswer), onSubmit_begin_sends.
  unfold onSubmit_settle, finishTransition, handleResult.
  rewrite Hzod, Hempty, map_to_list_empty. cbn. split_and!; [|done..].
  by destruct (form (ui w)).
Qed.

Lemma State_eq (s t : State) :
  clientValidation s = clientValidation t → isPending s = isPending t →
  submissionTime s = submissionTime t → serverError s = serverError t →
  form s = form t → s = t.
Proof. destruct s, t; cbn. by intros -> -> -> -> ->. Qed.

Lemma handleResult_failure_twice (error : E) now now' (st : State) :
  handleResult (Failure error) now'
    (setSubmissionTime None (setServerError None (handleResult (Failure error) now st)))
  = handleResult (Failure error) now' (setSubmissionTime None (setServerError None st)).
Proof.
  unfold handleResult. destruct (isZodValidationError error) eqn:Hzod.
  - apply State_eq; try done. cbn [form setForm setSubmissionTime setServerError].
    apply UseFormReturn_eq.
    + by rewrite !setError_fold_values.
    + apply map_eq. intros key.
      rewrite !setError_fold_lookup by apply NoDup_fst_map_to_list.
      by destruct (list_to_map (map_to_list (error_errors error)) !! key).
  - by destruct (isDatabaseError error || isPermissionError error || isUnknownError error).
Qed.

(** X6: submitting the same data again, with the server answering as before,
    leaves the component as one submission does: field errors are replaced
    key by key, not piled up, and the banner is set afresh. *)
Theorem resubmission_is_idempotent server now now' data w :
  ui (onSubmit server now' data (onSubmit server now data w))
  = ui (onSubmit server now' data w).
Proof.
  destruct (answers_total server data) as [outcome Hanswer].
  rewrite !(onSubmit_settles _ _ _ _ _ Hanswer), !onSubmit_begin_sends.
  unfold onSubmit_settle, finishTransition. cbn [ui setUi transitions pred].
  destruct outcome as [[|error]|error|]; [done| |done..].
  apply State_eq; cbn [clientValidation isPending submissionTime serverError form setPending].
  - unfold handleResult. destruct (isZodValidationError error); [done|].
    by destruct (isDatabaseError error || isPermissionError error || isUnknownError error).
  - done.
  - unfold handleResult. destruct (isZodValidationError error); [done|].
    by destruct (isDatabaseError error || isPermissionError error || isUnknownError error).
  - unfold handleResult. destruct (isZodValidationError error); [done|].
    by destruct (isDatabaseError error || isPermissionError error || isUnknownError error).
  - pose proof (handleResult_failure_twice error now now' (setPending true (ui w))) as Htwice.
    apply (f_equal form) in Htwice. revert Htwice.
    unfold handleResult. destruct (isZodValidationError error); [|
      by destruct (isDatabaseError error || isPermissionError error || isUnknownError error)].
    cbn. done.
Qed.

(** ** The page while a submission is pending *)

(** X7: what the user types while a submission is pending is discarded when
    the submission succeeds, since [form.reset()] restores the default
    values, and is kept when it fails or throws. *)
Theorem edits_while_pending (userSchema : Schema) data (edited : UserFormData)
    (outcome : Settled E) (now : string) w :
  ∃ w',
    run userSchema [Change edited; Settle outcome now] (onSubmit_begin data w) = Some w'
    ∧ formValues (form (ui w'))
      = match outcome with
        | Resolved Success => defaultValues
        | _ => edited
        end.
Proof.
  rewrite onSubmit_begin_sends. eexists. split; [reflexivity|].
  unfold onSubmit_settle, finishTransition. cbn [ui setUi setPending form].
  destruct outcome as [[|error]|error|]; [done| |done..].
  unfold handleResult. destruct (isZodValidationError error).
  - cbn. by rewrite setError_fold_values.
  - by destruct (isDatabaseError error || isPermissionError error || isUnknownError error).
Qed.

Lemma quiet_react (userSchema : Schema) (event : Event) w w' :
  pendingMatches w →
  (serverError (ui w) = None ∨ submissionTime (ui w) = None)
  ∧ (0 < transitions w → serverError (ui w) = None ∧ submissionTime (ui w) = None) →
  react userSchema event w = Some w' →
  (serverError (ui w') = None ∨ submissionTime (ui w') = None)
  ∧ (0 < transitions w' → serverError (ui w') = None ∧ submissionTime (ui w') = None).
Proof.
  intros Hinv [Hone Hpending] Hreact.
  destruct event as [checked|data| |outcome now]; cbn in Hreact.
  - by injection Hreact as <-.
  - by injection Hreact as <-.
  - destruct (submitDisabled (ui w)) eqn:Hidle; [done|]. injection Hreact as <-.
    pose proof (pendingMatches_idle w Hinv Hidle) as Hzero.
    unfold handleSubmit, resolver, zodResolver.
    destruct (clientValidation (ui w)).
    + destruct (userSchema (formValues (form (ui w)))) as [values|errors].
      * rewrite onSubmit_begin_sends. cbn. by split; [left|].
      * cbn. split; [done|]. rewrite Hzero. lia.
    + cbv zeta. case_decide.
      * rewrite onSubmit_begin_sends. cbn. by split; [left|].
      * cbn. split; [done|]. rewrite Hzero. lia.
  - case_decide as Hbusy; [|done]. injection Hreact as <-.
    destruct (Hpending Hbusy) as [Herror Htime]. destruct Hinv as [Hle _].
    unfold onSubmit_settle, finishTransition. cbn [ui setUi setPending transitions
      serverError submissionTime].
    split; [|lia].
    destruct outcome as [[|error]|error|]; cbn.
    + by left.
    + right. destruct (isZodValidationError error); [done|].
      by destruct (isDatabaseError error || isPermissionError error || isUnknownError error).
    + by right.
    + by right.
Qed.

(** X8: in every reachable state of the page the error banner and the
    success message are never rendered together, and while a submission is
    pending neither of them is rendered. *)
Theorem banners_never_overlap (userSchema : Schema) w :
  reachable userSchema w →
  (serverErrorBanner (ui w) = None ∨ successBanner (ui w) = None)
  ∧ (isPending (ui w) = true →
       serverErrorBanner (ui w) = None ∧ successBanner (ui w) = None).
Proof.
  intros Hreach.
  assert ((serverError (ui w) = None ∨ submissionTime (ui w) = None)
          ∧ (0 < transitions w →
               serverError (ui w) = None ∧ submissionTime (ui w) = None)) as [Hone Hpending].
  { destruct Hreach as [events Hrun]. revert w Hrun.
    induction events as [|event events IH] using rev_ind; intros w Hrun.
    - injection Hrun as <-. split; [by left|done].
    - rewrite run_snoc in Hrun.
      destruct (run userSchema events initialWorld) as [w0|] eqn:Hprefix; [|done].
      cbn in Hrun. eapply quiet_react; [|by apply IH|done].
      apply (pendingMatches_reachable userSchema). by exists events. }
  unfold serverErrorBanner, successBanner. split.
  - destruct Hone as [-> | ->]; [by left|by right].
  - intros Hflag.
    destruct (pendingMatches_reachable _ _ Hreach) as [_ Hmatch].
    rewrite Hflag in Hmatch. symmetry in Hmatch. apply bool_decide_eq_true in Hmatch.
    by destruct (Hpending Hmatch) as [-> ->].
Qed.

Lemma settlements_snoc (events : list (@Event E)) (event : @Event E) :
  settlements (events ++ [event])
  = settlements events + (if isSettle event then 1 else 0).
Proof.
  unfold settlements. rewrite filter_app, length_app. f_equal.
  by destruct event.
Qed.

Lemma submissions_snoc (events : list (@Event E)) (event : @Event E) :
  submissions (events ++ [event])
  = submissions events + (if isSubmit event then 1 else 0).
Proof.
  unfold submissions. rewrite filter_app, length_app. f_equal.
  by destruct event.
Qed.

Lemma requests_react (userSchema : Schema) (event : Event) w w' :
  react userSchema event w = Some w' →
  length (requests w') + transitions w
  = length (requests w) + transitions w' + (if isSettle event then 1 else 0)
  ∧ length (requests w') ≤ length (requests w) + (if isSubmit event then 1 else 0).
Proof.
  intros Hreact. destruct event as [checked|data| |outcome now]; cbn in Hreact.
  - injection Hreact as <-. cbn. lia.
  - injection Hreact as <-. cbn. lia.
  - destruct (submitDisabled (ui w)); [done|]. injection Hreact as <-.
    unfold handleSubmit, resolver, zodResolver.
    destruct (clientValidation (ui w)).
    + destruct (userSchema (formValues (form (ui w)))) as [values|errors].
      * rewrite onSubmit_begin_sends. cbn. rewrite length_app. cbn. lia.
      * cbn. lia.
    + cbv zeta. case_decide.
      * rewrite onSubmit_begin_sends. cbn. rewrite length_app. cbn. lia.
      * cbn. lia.
  - case_decide as Hbusy; [|done]. injection Hreact as <-.
    unfold onSubmit_settle, finishTransition. cbn. lia.
Qed.

(** X9: along every run of the page each call of the server action is either
    still awaited or has settled exactly once, and there are never more calls
    than presses of the submit button: nothing is sent twice or retried. *)
Theorem requests_are_accounted_for (userSchema : Schema) (events : list Event) w :
  run userSchema events initialWorld = Some w →
  length (requests w) = settlements events + transitions w
  ∧ length (requests w) ≤ submissions events.
Proof.
  revert w. induction events as [|event events IH] using rev_ind; intros w Hrun.
  - injection Hrun as <-. done.
  - rewrite run_snoc in Hrun.
    destruct (run userSchema events initialWorld) as [w0|] eqn:Hprefix; [|done].
    cbn in Hrun. destruct (IH w0 eq_refl) as [Hcount Hbound].
    destruct (requests_react _ _ _ _ Hrun) as [Hstep Hsent].
    rewrite settlements_snoc, submissions_snoc. lia.
Qed.

(** X10: switching client validation while a submission is pending does not
    change how its result is handled: the switch and the settling of the
    promise can come in either order. *)
Theorem toggle_commutes_with_settle (userSchema : Schema) (checked : bool)
    (outcome : Settled E) (now : string) w :
  run userSchema [Toggle checked; Settle outcome now] w
  = run userSchema [Settle outcome now; Toggle checked] w.
Proof.
  cbn. destruct (decide (0 < transitions w)) as [Hbusy|Hidle]; [|done].
  cbn. f_equal. unfold onSubmit_settle, finishTransition.
  cbn [ui setUi transitions requests]. f_equal.
  destruct outcome as [[|error]|error|]; [done| |done..].
  unfold handleResult. destruct (isZodValidationError error); [done|].
  by destruct (isDatabaseError error || isPermissionError error || isUnknownError error).
Qed.

End Further.

(** ** The further properties at sample inputs *)

Lemma validation_errors_in_any_order_witness :
  isZodValidationError twoFieldFailure = true
  ∧ NoDup [("name", "Name is required"); ("email", "Invalid email address")].*1
  ∧ list_to_map [("name", "Name is required"); ("email", "Invalid email address")]
    = error_errors twoFieldFailure
  ∧ NoDup [("email", "Invalid email address"); ("name", "Name is required")].*1
  ∧ list_to_map [("email", "Invalid email address"); ("name", "Name is required")]
    = error_errors twoFieldFailure
  ∧ foldl (λ form entry,
             form_setError entry.1 {| type := "server"; message := entry.2 |} form)
      (form initialState)
      [("name", "Name is required"); ("email", "Invalid email address")]
    = foldl (λ form entry,
               form_setError entry.1 {| type := "server"; message := entry.2 |} form)
        (form initialState)
        [("email", "Invalid email address"); ("name", "Name is required")].
Proof.
  assert (isZodValidationError twoFieldFailure = true) as Hzod by reflexivity.
  assert (NoDup [("name", "Name is required"); ("email", "Invalid email address")].*1)
    as Hnodup.
  { by apply (bool_decide_unpack _). }
  assert (list_to_map [("name", "Name is required"); ("email", "Invalid email address")]
          = error_errors twoFieldFailure) as Hentries by reflexivity.
  assert (NoDup [("email", "Invalid email address"); ("name", "Name is required")].*1)
    as Hnodup'.
  { by apply (bool_decide_unpack _). }
  assert (list_to_map [("email", "Invalid email address"); ("name", "Name is required")]
          = error_errors twoFieldFailure) as Hentries' by reflexivity.
  split; [exact Hzod|]. split; [exact Hnodup|]. split; [exact Hentries|].
  split; [exact Hnodup'|]. split; [exact Hentries'|].
  rewrite <- (validation_errors_in_any_order twoFieldFailure sampleTime initialState
                _ Hzod Hnodup Hentries).
  exact (validation_errors_in_any_order twoFieldFailure sampleTime initialState
           _ Hzod Hnodup' Hentries').
Defined.

Lemma payload_keeps_field_order_witness :
  buildFormData [("bio", JString "Hi"); ("age", JNumber "1e+21"); ("name", JNull);
                 ("email", JString "")]
  = inr [("bio", "Hi"); ("age", "1e+21")]
  ∧ NoDup [("bio", JString "Hi"); ("age", JNumber "1e+21"); ("name", JNull);
           ("email", JString "")].*1
  ∧ NoDup [("bio", "Hi"); ("age", "1e+21")].*1.
Proof.
  assert (buildFormData [("bio", JString "Hi"); ("age", JNumber "1e+21"); ("name", JNull);
                         ("email", JString "")]
          = inr [("bio", "Hi"); ("age", "1e+21")]) as Hbuild by reflexivity.
  assert (NoDup [("bio", JString "Hi"); ("age", JNumber "1e+21"); ("name", JNull);
                 ("email", JString "")].*1) as Hnodup.
  { by apply (bool_decide_unpack _). }
  split; [exact Hbuild|]. split; [exact Hnodup|].
  apply (payload_keeps_field_order _ _ Hbuild Hnodup).
Defined.

Lemma failed_submission_keeps_input_witness :
  answers (always (E:=AppError) (Rejected networkError)) sampleData (Rejected networkError)
  ∧ Rejected networkError ≠ Resolved (E:=AppError) Success
  ∧ formValues
      (form (ui (onSubmit (always (E:=AppError) (Rejected networkError)) sampleTime sampleData
                   (setUi (setForm (form_setValues sampleData (form initialState))
                             initialState) initialWorld))))
    = sampleData.
Proof.
  assert (answers (always (E:=AppError) (Rejected networkError)) sampleData
            (Rejected networkError)) as Hanswer.
  { eexists. split; reflexivity. }
  assert (Rejected networkError ≠ Resolved (E:=AppError) Success) as Hfailed.
  { discriminate. }
  split; [exact Hanswer|]. split; [exact Hfailed|].
  apply (failed_submission_keeps_input _ sampleTime sampleData
           (setUi (setForm (form_setValues sampleData (form initialState)) initialState)
              initialWorld)
           _ Hanswer Hfailed).
Defined.

Lemma empty_validation_failure_is_silent_witness :
  answers (always (Resolved (Failure (ZodValidationError ∅)))) sampleData
    (Resolved (Failure (ZodValidationError ∅)))
  ∧ isZodValidationError (ZodValidationError ∅) = true
  ∧ error_errors (ZodValidationError ∅) = ∅
  ∧ serverErrorBanner
      (ui (onSubmit (always (Resolved (Failure (ZodValidationError ∅))))
             sampleTime sampleData initialWorld))
    = None.
Proof.
  assert (answers (always (Resolved (Failure (ZodValidationError ∅)))) sampleData
            (Resolved (Failure (ZodValidationError ∅)))) as Hanswer.
  { eexists. split; reflexivity. }
  assert (isZodValidationError (ZodValidationError ∅) = true) as Hzod by reflexivity.
  assert (error_errors (ZodValidationError ∅) = ∅) as Hempty by reflexivity.
  split; [exact Hanswer|]. split; [exact Hzod|]. split; [exact Hempty|].
  apply (empty_validation_failure_is_silent _ sampleTime sampleData initialWorld
           _ Hanswer Hzod Hempty).
Defined.

Lemma banners_never_overlap_witness :
  reachable (E:=AppError) sampleSchema
    (onSubmit (always (Resolved (Failure (DatabaseError "Connection lost"))))
       sampleTime defaultValues initialWorld)
  ∧ successBanner
      (ui (onSubmit (always (Resolved (Failure (DatabaseError "Connection lost"))))
             sampleTime defaultValues initialWorld))
    = None.
Proof.
  assert (reachable (E:=AppError) sampleSchema
            (onSubmit (always (Resolved (Failure (DatabaseError "Connection lost"))))
               sampleTime defaultValues initialWorld)) as Hreach.
  { exists [Submit; Settle (Resolved (Failure (DatabaseError "Connection lost"))) sampleTime].
    reflexivity. }
  split; [exact Hreach|].
  destruct (banners_never_overlap sampleSchema _ Hreach) as [[Herror|Hsuccess] _].
  - discriminate Herror.
  - exact Hsuccess.
Defined.

Lemma requests_are_accounted_for_witness :
  run (E:=AppError) sampleSchema
    [Change sampleData; Submit; Settle (Resolved Success) sampleTime; Submit] initialWorld
  = Some
      {| ui := setPending true initialState;
         transitions := 1;
         requests :=
           [[("name", "Jane"); ("email", "jane@acme.com"); ("age", "31")];
            [("email", "jdoe@acme.com"); ("age", "25"); ("bio", "I'm an American")]] |}
  ∧ settlements (E:=AppError)
      [Change sampleData; Submit; Settle (Resolved Success) sampleTime; Submit] = 1.
Proof.
  assert (run (E:=AppError) sampleSchema
            [Change sampleData; Submit; Settle (Resolved Success) sampleTime; Submit]
            initialWorld
          = Some
              {| ui := setPending true initialState;
                 transitions := 1;
                 requests :=
                   [[("name", "Jane"); ("email", "jane@acme.com"); ("age", "31")];
                    [("email", "jdoe@acme.com"); ("age", "25");
                     ("bio", "I'm an American")]] |}) as Hrun by reflexivity.
  split; [exact Hrun|].
  pose proof (requests_are_accounted_for sampleSchema _ _ Hrun) as [Hcount _].
  cbn [requests transitions length] in Hcount. lia.
Defined.
